(** * velmios-lib quick start example: route handlers over an
      AuthenticationContext

    Shallow embedding of [skills/velmios-lib/assets/quick_start_example.py].
    The file registers three FastAPI routes.  Each route declares a
    dependency ([DependsAuthorizedPersona] or [DependsSystemHasScope]) that
    is resolved before the handler body runs, and a handler body that reads
    fields of the resolved [AuthenticationContext] and builds a [dict].

    The handler bodies are embedded as computations of a small state and
    exception monad whose state is the context object the parameter [auth]
    refers to: Python objects are mutable, so "the handler only reads the
    context" is a property of the three bodies, not of the language.  For
    what concerns several requests, the bodies are embedded once more over
    the whole process, where a body could also reach the module state and
    the contexts of other requests. *)

From stdpp Require Import base strings gmap list.

(** ** Python values *)

(** [str(x)]: the string form of a value, per type ([__str__]). *)
Class PyStr (A : Type) := str : A → string.

(** [str] of a [str] is the string itself. *)
#[global] Instance string_PyStr : PyStr string := λ s, s.

(** Modelled from the spec: the enumeration [AuthenticationPersona] is
    imported from [velmios.core.security], which is not part of the source
    tree.  The spec lists ADMIN, CUSTOMER and an implicit SYSTEM variant. *)
Inductive AuthenticationPersona := ADMIN | CUSTOMER | SYSTEM.

#[global] Instance AuthenticationPersona_eq_dec : EqDecision AuthenticationPersona.
Proof. solve_decision. Defined.

(** ** Exceptions *)

(** Raised when a handler dereferences a sub-entity that is not there
    ([auth.system.id] with no system entity, and the like).  The argument
    records which access failed; the Python exception itself does not tell
    the accesses apart. *)
Inductive exn := MissingEntity (p : AuthenticationPersona).

Inductive result (A : Type) :=
  | Ok (a : A)
  | Raise (e : exn).
Arguments Ok {A} a.
Arguments Raise {A} e.

(** ** External types *)

(** The types the example receives from [velmios.core] and never inspects:
    identifiers, e-mail addresses and roles.  The handlers apply [str] to
    identifiers and e-mail addresses and pass roles through untouched, so
    the former come with a string form and the latter do not need one. *)
Class Velmios := {
  RealmId : Type;
  AdminId : Type;
  CustomerId : Type;
  SystemId : Type;
  Email : Type;
  AdminRole : Type;
  CustomerRole : Type;
  RealmId_str :: PyStr RealmId;
  AdminId_str :: PyStr AdminId;
  CustomerId_str :: PyStr CustomerId;
  SystemId_str :: PyStr SystemId;
  Email_str :: PyStr Email;
}.

(** The three routes registered on [app]. *)
Inductive endpoint := GET_my_resource | POST_internal_sync | GET_me.

Section QuickStart.
Context `{Velmios}.

(** ** Data model: the context and its sub-entities *)

(** [auth.admin]: read through [.id], [.role], [.email]. *)
Record Admin := {
  admin_id : AdminId;
  admin_role : AdminRole;
  admin_email : Email;
}.

(** [auth.customer]: read through [.id], [.role], [.realm_id]. *)
Record Customer := {
  customer_id : CustomerId;
  customer_role : CustomerRole;
  customer_realm_id : RealmId;
}.

(** [auth.system]: read through [.id]. *)
Record System := {
  system_id : SystemId;
}.

(** The per-request value handed to a handler as [auth].  A sub-entity that
    the authorization layer did not populate is [None]. *)
Record AuthenticationContext := {
  persona : AuthenticationPersona;
  realm_id : RealmId;
  admin : option Admin;
  customer : option Customer;
  system : option System;
}.

(** Modelled from the spec: which sub-entity a persona selects is decided by
    the authorization library, absent from the source tree; the spec's data
    model says the persona selects which sub-entity is populated. *)
Definition populated (auth : AuthenticationContext) : Prop :=
  match persona auth with
  | ADMIN => is_Some (admin auth)
  | CUSTOMER => is_Some (customer auth)
  | SYSTEM => is_Some (system auth)
  end.

(** ** Response values *)

(** A value stored in a response dictionary: a Python string (the result of
    [str]), or an object of the context stored as it is.  The handlers store
    the persona and the roles as they are; an identifier or an e-mail address
    stored without [str] would be one of the last five. *)
Inductive value :=
  | VStr (s : string)
  | VPersona (p : AuthenticationPersona)
  | VAdminRole (r : AdminRole)
  | VCustomerRole (r : CustomerRole)
  | VRealmId (r : RealmId)
  | VAdminId (i : AdminId)
  | VCustomerId (i : CustomerId)
  | VSystemId (i : SystemId)
  | VEmail (m : Email).

(** Whether a response value is a Python [str]. *)
Definition is_str (v : value) : bool :=
  match v with VStr _ => true | _ => false end.

Abbreviation dict := (gmap string value).

(** ** The handler monad: exceptions over the mutable context object *)

(** A handler body: from the context object before to an outcome and the
    context object after. *)
Definition M (A : Type) : Type :=
  AuthenticationContext → result A * AuthenticationContext.

#[local] Instance M_ret : MRet M := λ A a σ, (Ok a, σ).

#[local] Instance M_bind : MBind M := λ A B f m σ,
  match m σ with
  | (Ok a, σ') => f a σ'
  | (Raise e, σ') => (Raise e, σ')
  end.

(** [auth.f]: attribute read. *)
Definition getattr {A} (f : AuthenticationContext → A) : M A :=
  λ σ, (Ok (f σ), σ).

(** [auth.f = ...]: attribute assignment.  No handler of the example uses
    it; it is what a handler that wrote to its context would be made of. *)
Definition setattr (f : AuthenticationContext → AuthenticationContext) : M () :=
  λ σ, (Ok (), f σ).

(** [auth.admin], [auth.customer], [auth.system] followed by a field access:
    raises when the sub-entity is missing. *)
Definition entity {A} (p : AuthenticationPersona)
    (f : AuthenticationContext → option A) : M A :=
  λ σ, match f σ with
       | Some e => (Ok e, σ)
       | None => (Raise (MissingEntity p), σ)
       end.

(** Modelled from the spec: [AuthenticationContext.persona_is] is a method of
    the external class; the spec says [/me] shapes its response "depending on
    resolved persona", so the method compares the context's persona with its
    argument. *)
Definition persona_is (p : AuthenticationPersona) : M bool :=
  λ σ, (Ok (bool_decide (persona σ = p)), σ).

(** What a handler returns, and the context object it leaves behind. *)
Definition returned {A} (m : M A) (auth : AuthenticationContext) : result A :=
  (m auth).1.

Definition context_after {A} (m : M A) (auth : AuthenticationContext)
    : AuthenticationContext :=
  (m auth).2.

(** ** The three handler bodies *)

(** [GET /my-resource] *)
Definition get_my_resource : M dict :=
  r ← getattr realm_id;
  p ← getattr persona;
  mret {[ "realm_id" := VStr (str r); "persona" := VPersona p ]}.

(** [POST /internal/sync] *)
Definition sync_data : M dict :=
  s ← entity SYSTEM system;
  mret {[ "system_id" := VStr (str (system_id s)) ]}.

(** [GET /me] *)
Definition get_me : M dict :=
  is_admin ← persona_is ADMIN;
  if is_admin : bool then
    a ← entity ADMIN admin;
    mret {[ "id" := VStr (str (admin_id a));
            "role" := VAdminRole (admin_role a);
            "email" := VStr (str (admin_email a)) ]}
  else
    c ← entity CUSTOMER customer;
    mret {[ "id" := VStr (str (customer_id c));
            "role" := VCustomerRole (customer_role c);
            "realm_id" := VStr (str (customer_realm_id c)) ]}.

(** ** Routes *)

(** The function each route decorator is applied to. *)
Definition handler (e : endpoint) : M dict :=
  match e with
  | GET_my_resource => get_my_resource
  | POST_internal_sync => sync_data
  | GET_me => get_me
  end.

(** ** The gates *)

(** Modelled from the spec: how a caller is authenticated is owned by the
    authorization library, absent from the source tree.  A caller either
    failed authentication or was authenticated into a context and a list of
    granted scopes. *)
Inductive Caller :=
  | Anonymous
  | Principal (auth : AuthenticationContext) (scopes : list string).

Definition authenticated_persona (c : Caller) : option AuthenticationPersona :=
  match c with
  | Anonymous => None
  | Principal auth _ => Some (persona auth)
  end.

(** The outcome of resolving a route's dependency. *)
Inductive resolution :=
  | Resolved (auth : AuthenticationContext)
  | Denied.

(** Modelled from the spec: [DependsAuthorizedPersona] is imported from
    [velmios.core.security], absent from the source tree.  Per the spec it
    resolves to the caller's context if and only if the caller's
    authenticated persona is in the allowed set, and denies otherwise. *)
Definition DependsAuthorizedPersona (allowed : list AuthenticationPersona)
    (c : Caller) : resolution :=
  match c with
  | Principal auth _ =>
      if bool_decide (persona auth ∈ allowed) then Resolved auth else Denied
  | Anonymous => Denied
  end.

(** Modelled from the spec: a verified system principal is a caller
    authenticated with persona SYSTEM whose context carries the system
    sub-entity. *)
Definition system_principal (auth : AuthenticationContext) : bool :=
  bool_decide (persona auth = SYSTEM) && bool_decide (is_Some (system auth)).

(** Modelled from the spec: [DependsSystemHasScope] is imported from
    [velmios.core.security], absent from the source tree.  Per the spec it
    resolves only if the caller is a verified system principal holding the
    required scope, and denies otherwise. *)
Definition DependsSystemHasScope (required_scope : string) (c : Caller)
    : resolution :=
  match c with
  | Principal auth scopes =>
      if system_principal auth && bool_decide (required_scope ∈ scopes)
      then Resolved auth else Denied
  | Anonymous => Denied
  end.

(** The dependency declared as the default of each handler's [auth]
    parameter. *)
Definition dependency (e : endpoint) : Caller → resolution :=
  match e with
  | GET_my_resource => DependsAuthorizedPersona [ADMIN; CUSTOMER]
  | POST_internal_sync => DependsSystemHasScope "my_service.sync:execute"
  | GET_me => DependsAuthorizedPersona [ADMIN; CUSTOMER]
  end.

(** What serving one request comes to: the dependency denied and the handler
    body never ran, or the body ran on the resolved context. *)
Inductive outcome :=
  | AccessDenied
  | Handled (r : result dict) (auth' : AuthenticationContext).

(** Modelled from the spec: the framework resolves the dependency before the
    route body executes and skips the body when the dependency denies. *)
Definition request (e : endpoint) (c : Caller) : outcome :=
  match dependency e c with
  | Resolved auth => let '(r, auth') := handler e auth in Handled r auth'
  | Denied => AccessDenied
  end.

(** Whether the handler body ran while the request was served. *)
Definition handler_executed (o : outcome) : bool :=
  match o with Handled _ _ => true | AccessDenied => false end.

End QuickStart.

(** ** The process around a handler *)

(** What a running body can reach besides the context object of its own
    request: the context objects of the other requests in flight, by request
    number, and the state of the module, of type [S] (its globals, among
    them [app], and the random source behind the imported [uuid]). *)
Record process `{Velmios} {S : Type} := {
  contexts : gmap nat AuthenticationContext;
  module_state : S;
}.
Arguments process {_} S.

(** The state a body runs in: the object its parameter [auth] refers to, and
    the rest of the process. *)
Record view `{Velmios} {S : Type} := {
  own : AuthenticationContext;
  rest : process S;
}.
Arguments view {_} S.

(** The handler bodies once more, as computations over the whole process:
    here a body could read or write the module state and the contexts of
    other requests, so that depending on its own context alone is a property
    of a body. *)
Module Process.
Section Bodies.
Context `{Velmios} {S : Type}.

Abbreviation dict := (gmap string value).

Definition P (A : Type) : Type := view S → result A * view S.

#[local] Instance P_ret : MRet P := λ A a w, (Ok a, w).

#[local] Instance P_bind : MBind P := λ A B f m w,
  match m w with
  | (Ok a, w') => f a w'
  | (Raise e, w') => (Raise e, w')
  end.

(** [auth.f]: attribute read on the own context. *)
Definition getattr {A} (f : AuthenticationContext → A) : P A :=
  λ w, (Ok (f (own w)), w).

(** [auth.admin], [auth.customer], [auth.system] followed by a field access. *)
Definition entity {A} (p : AuthenticationPersona)
    (f : AuthenticationContext → option A) : P A :=
  λ w, match f (own w) with
       | Some e => (Ok e, w)
       | None => (Raise (MissingEntity p), w)
       end.

(** Modelled from the spec: [auth.persona_is(p)], as for [persona_is] above. *)
Definition persona_is (p : AuthenticationPersona) : P bool :=
  λ w, (Ok (bool_decide (persona (own w) = p)), w).

(** Reading a global, drawing from the random source, looking at another
    request's context: anything read off the rest of the process.  No handler
    of the example does it. *)
Definition read_process {A} (f : process S → A) : P A :=
  λ w, (Ok (f (rest w)), w).

(** Assigning a global, advancing the random source, writing to another
    request's context.  No handler of the example does it. *)
Definition write_process (f : process S → process S) : P () :=
  λ w, (Ok (), {| own := own w; rest := f (rest w) |}).

(** [GET /my-resource] *)
Definition get_my_resource : P dict :=
  r ← getattr realm_id;
  p ← getattr persona;
  mret {[ "realm_id" := VStr (str r); "persona" := VPersona p ]}.

(** [POST /internal/sync] *)
Definition sync_data : P dict :=
  s ← entity SYSTEM system;
  mret {[ "system_id" := VStr (str (system_id s)) ]}.

(** [GET /me] *)
Definition get_me : P dict :=
  is_admin ← persona_is ADMIN;
  if is_admin : bool then
    a ← entity ADMIN admin;
    mret {[ "id" := VStr (str (admin_id a));
            "role" := VAdminRole (admin_role a);
            "email" := VStr (str (admin_email a)) ]}
  else
    c ← entity CUSTOMER customer;
    mret {[ "id" := VStr (str (customer_id c));
            "role" := VCustomerRole (customer_role c);
            "realm_id" := VStr (str (customer_realm_id c)) ]}.

Definition handler (e : endpoint) : P dict :=
  match e with
  | GET_my_resource => get_my_resource
  | POST_internal_sync => sync_data
  | GET_me => get_me
  end.

(** One invocation of a body [h] for the request numbered [rid]: the body
    runs on that request's context object with the rest of the process around
    it, and what it leaves behind is the process afterwards.  The bodies of
    the example contain no [await], so the event loop runs each invocation
    from entry to [return] without interleaving: concurrent requests come to
    invocations in some order. *)
Definition invoke_body (h : P dict) (rid : nat) (w : process S)
    : option (result dict) * process S :=
  match contexts w !! rid with
  | Some auth =>
      let '(r, v) := h {| own := auth;
                          rest := {| contexts := delete rid (contexts w);
                                     module_state := module_state w |} |} in
      (Some r, {| contexts := <[rid := own v]> (contexts (rest v));
                  module_state := module_state (rest v) |})
  | None => (None, w)
  end.

Definition invoke (rid : nat) (e : endpoint) (w : process S)
    : option (result dict) * process S :=
  invoke_body (handler e) rid w.

(** A schedule of invocations, served in order; the responses come back in
    the same order. *)
Fixpoint serve (sched : list (nat * endpoint)) (w : process S)
    : list (option (result dict)) * process S :=
  match sched with
  | [] => ([], w)
  | (rid, e) :: sched' =>
      let '(r, w') := invoke rid e w in
      let '(rs, w'') := serve sched' w' in
      (r :: rs, w'')
  end.

End Bodies.

Arguments P {_} S A.

End Process.

(** ** A concrete instance *)

(** Identifiers as their textual form (UUID strings), roles as role names. *)
Definition demo : Velmios := {|
  RealmId := string;
  AdminId := string;
  CustomerId := string;
  SystemId := string;
  Email := string;
  AdminRole := string;
  CustomerRole := string;
  RealmId_str := string_PyStr;
  AdminId_str := string_PyStr;
  CustomerId_str := string_PyStr;
  SystemId_str := string_PyStr;
  Email_str := string_PyStr;
|}.

Module Demo.
#[local] Existing Instance demo.
#[local] Existing Instances Process.P_ret Process.P_bind.

Definition root : Admin :=
  {| admin_id := "a-01"; admin_role := "owner"; admin_email := "root@example.org" |}.

Definition bob : Customer :=
  {| customer_id := "c-07"; customer_role := "member"; customer_realm_id := "realm-2" |}.

Definition syncer : System := {| system_id := "s-42" |}.

(** An administrator of realm 1. *)
Definition admin_ctx : AuthenticationContext :=
  {| persona := ADMIN; realm_id := "realm-1";
     admin := Some root; customer := None; system := None |}.

(** A customer of realm 2. *)
Definition customer_ctx : AuthenticationContext :=
  {| persona := CUSTOMER; realm_id := "realm-2";
     admin := None; customer := Some bob; system := None |}.

(** A system principal. *)
Definition system_ctx : AuthenticationContext :=
  {| persona := SYSTEM; realm_id := "realm-0";
     admin := None; customer := None; system := Some syncer |}.

(** A context with persona SYSTEM that also carries a customer entity. *)
Definition system_with_customer_ctx : AuthenticationContext :=
  {| persona := SYSTEM; realm_id := "realm-2";
     admin := None; customer := Some bob; system := Some syncer |}.

(** A context claiming persona SYSTEM with no system entity. *)
Definition hollow_system_ctx : AuthenticationContext :=
  {| persona := SYSTEM; realm_id := "realm-0";
     admin := None; customer := None; system := None |}.

Definition sync_caller : Caller :=
  Principal system_ctx ["my_service.read"; "my_service.sync:execute"].

Definition unscoped_caller : Caller :=
  Principal system_ctx ["my_service.read"].

Definition admin_caller : Caller := Principal admin_ctx [].

Definition customer_caller : Caller := Principal customer_ctx [].

(** Two requests in flight with equal contexts, and a third one; the module
    state is a counter. *)
Definition in_flight : process nat :=
  {| contexts := {[ 1 := customer_ctx; 2 := customer_ctx; 3 := admin_ctx ]};
     module_state := 7 |}.

(** Another process: one request, with the context of request 1 above, and
    another module state. *)
Definition elsewhere : process nat :=
  {| contexts := {[ 5 := customer_ctx ]}; module_state := 0 |}.

(** A body that is not in the example: it answers with a global. *)
Definition leaky : Process.P nat (gmap string value) :=
  n ← Process.read_process module_state;
  mret {[ "system_id" := VStr (if decide (n = 0) then "zero" else "more") ]}.

(** A body that is not in the example: it drops the other requests' contexts. *)
Definition meddling : Process.P nat (gmap string value) :=
  _ ← Process.write_process (λ p, {| contexts := ∅; module_state := module_state p |});
  mret ∅.

End Demo.

(** * Properties *)

Section Properties.
Context `{Velmios}.

Abbreviation dict := (gmap string value).

(** ** Running the handlers on examples *)

Example getattr_reads (auth : AuthenticationContext) :
  getattr persona auth = (Ok (persona auth), auth).
Proof. reflexivity. Qed.

(** An assignment does change the context: the frame property below is a
    property of the handlers, not of every computation in [M]. *)
Example setattr_writes (auth : AuthenticationContext) :
  persona auth = CUSTOMER →
  context_after (setattr (λ σ, {| persona := ADMIN; realm_id := realm_id σ;
                                  admin := admin σ; customer := customer σ;
                                  system := system σ |})) auth ≠ auth.
Proof. intros Hp Heq. rewrite <- Heq in Hp. discriminate Hp. Qed.

(** ** Equations of the handler bodies *)

Lemma get_my_resource_run (auth : AuthenticationContext) :
  get_my_resource auth =
    (Ok {[ "realm_id" := VStr (str (realm_id auth));
           "persona" := VPersona (persona auth) ]}, auth).
Proof. reflexivity. Qed.

Lemma sync_data_run (auth : AuthenticationContext) :
  sync_data auth =
    match system auth with
    | Some s => (Ok {[ "system_id" := VStr (str (system_id s)) ]}, auth)
    | None => (Raise (MissingEntity SYSTEM), auth)
    end.
Proof. unfold sync_data, mbind, M_bind, entity. by destruct (system auth). Qed.

Lemma get_me_run_admin (auth : AuthenticationContext) :
  persona auth = ADMIN →
  get_me auth =
    match admin auth with
    | Some a => (Ok {[ "id" := VStr (str (admin_id a));
                       "role" := VAdminRole (admin_role a);
                       "email" := VStr (str (admin_email a)) ]}, auth)
    | None => (Raise (MissingEntity ADMIN), auth)
    end.
Proof.
  intros Hp. unfold get_me, mbind, M_bind, persona_is, entity.
  rewrite bool_decide_eq_true_2 by done. by destruct (admin auth).
Qed.

Lemma get_me_run_other (auth : AuthenticationContext) :
  persona auth ≠ ADMIN →
  get_me auth =
    match customer auth with
    | Some c => (Ok {[ "id" := VStr (str (customer_id c));
                       "role" := VCustomerRole (customer_role c);
                       "realm_id" := VStr (str (customer_realm_id c)) ]}, auth)
    | None => (Raise (MissingEntity CUSTOMER), auth)
    end.
Proof.
  intros Hp. unfold get_me, mbind, M_bind, persona_is, entity.
  rewrite bool_decide_eq_false_2 by done. by destruct (customer auth).
Qed.

(** Every handler hands back the context object it was given. *)
Lemma handler_reads_only (e : endpoint) (auth : AuthenticationContext) :
  (handler e auth).2 = auth.
Proof.
  destruct e; unfold handler.
  - by rewrite get_my_resource_run.
  - rewrite sync_data_run. by destruct (system auth).
  - destruct (decide (persona auth = ADMIN)) as [Hp|Hp].
    + rewrite get_me_run_admin by done. by destruct (admin auth).
    + rewrite get_me_run_other by done. by destruct (customer auth).
Qed.

(** ** Response shaping *)

(** C1: for a context whose persona is ADMIN, with its admin entity
    populated, [get_me] returns the dictionary of [id], [role] and [email]
    taken from [auth.admin]; for persona CUSTOMER, with its customer entity
    populated, it returns [id], [role] and [realm_id] taken from
    [auth.customer]. *)
Theorem get_me_shape_by_persona (auth : AuthenticationContext) :
  populated auth →
  (persona auth = ADMIN →
     ∃ a, admin auth = Some a ∧
       returned get_me auth =
         Ok {[ "id" := VStr (str (admin_id a));
               "role" := VAdminRole (admin_role a);
               "email" := VStr (str (admin_email a)) ]}) ∧
  (persona auth = CUSTOMER →
     ∃ c, customer auth = Some c ∧
       returned get_me auth =
         Ok {[ "id" := VStr (str (customer_id c));
               "role" := VCustomerRole (customer_role c);
               "realm_id" := VStr (str (customer_realm_id c)) ]}).
Proof.
  unfold populated, returned. intros Hpop. split; intros Hp; rewrite Hp in Hpop.
  - destruct Hpop as [a Ha]. exists a. split; [done|].
    rewrite get_me_run_admin by done. by rewrite Ha.
  - destruct Hpop as [c Hc]. exists c. split; [done|].
    rewrite get_me_run_other by congruence. by rewrite Hc.
Qed.

(** C2: [get_my_resource] returns, for every context, a dictionary whose
    keys are exactly [realm_id] and [persona], holding the string form of
    [auth.realm_id] and [auth.persona] itself. *)
Theorem get_my_resource_echoes (auth : AuthenticationContext) :
  ∃ d : dict,
    returned get_my_resource auth = Ok d ∧
    dom d = {[ "realm_id"; "persona" ]} ∧
    d !! "realm_id" = Some (VStr (str (realm_id auth))) ∧
    d !! "persona" = Some (VPersona (persona auth)).
Proof.
  unfold returned. rewrite get_my_resource_run. eexists. split; [reflexivity|].
  split; [|done]. by rewrite dom_insert_L, dom_singleton_L.
Qed.

(** C3: for every context carrying a system entity, [sync_data] returns a
    dictionary whose only key is [system_id], holding the string form of
    [auth.system.id]. *)
Theorem sync_data_echoes (auth : AuthenticationContext) (s : System) :
  system auth = Some s →
  ∃ d : dict,
    returned sync_data auth = Ok d ∧
    dom d = {[ "system_id" ]} ∧
    d !! "system_id" = Some (VStr (str (system_id s))).
Proof.
  intros Hs. unfold returned. rewrite sync_data_run, Hs. eexists.
  split; [reflexivity|]. split; [|done]. by rewrite dom_singleton_L.
Qed.

(** C8, amended: [get_me] branches on [persona_is(ADMIN)] alone: for every
    context whose persona is not ADMIN, CUSTOMER or not, the else branch runs
    and reads [auth.customer]; it returns the customer-shaped fields when
    that entity is populated and raises the missing-entity exception when it
    is not. *)
Theorem get_me_non_admin_is_customer (auth : AuthenticationContext) :
  persona auth ≠ ADMIN →
  returned get_me auth =
    match customer auth with
    | Some c => Ok {[ "id" := VStr (str (customer_id c));
                      "role" := VCustomerRole (customer_role c);
                      "realm_id" := VStr (str (customer_realm_id c)) ]}
    | None => Raise (MissingEntity CUSTOMER)
    end.
Proof.
  intros Hp. unfold returned. rewrite get_me_run_other by done.
  by destruct (customer auth).
Qed.

(** Whatever dictionary a handler returns: its values are strings except
    under [persona] and [role], and the identifier-like ones are the [str] of
    the fields they come from. *)
Lemma returned_values_stringified
    (e : endpoint) (auth : AuthenticationContext) (d : dict) :
  returned (handler e) auth = Ok d →
  (∀ k v, d !! k = Some v → is_str v = bool_decide (k ∉ ["persona"; "role"])) ∧
  match e with
  | GET_my_resource =>
      d !! "realm_id" = Some (VStr (str (realm_id auth))) ∧
      d !! "persona" = Some (VPersona (persona auth))
  | POST_internal_sync =>
      ∃ s, system auth = Some s ∧
        d !! "system_id" = Some (VStr (str (system_id s)))
  | GET_me =>
      (∃ a, admin auth = Some a ∧
         d !! "id" = Some (VStr (str (admin_id a))) ∧
         d !! "role" = Some (VAdminRole (admin_role a)) ∧
         d !! "email" = Some (VStr (str (admin_email a)))) ∨
      (∃ c, customer auth = Some c ∧
         d !! "id" = Some (VStr (str (customer_id c))) ∧
         d !! "role" = Some (VCustomerRole (customer_role c)) ∧
         d !! "realm_id" = Some (VStr (str (customer_realm_id c))))
  end.
Proof.
  unfold returned. destruct e; unfold handler.
  - rewrite get_my_resource_run. intros [= <-]. split; [|done].
    intros k v. rewrite lookup_insert_Some, lookup_singleton_Some.
    intros [[<- <-]|[_ [<- <-]]]; reflexivity.
  - rewrite sync_data_run. destruct (system auth) as [s|]; intros [= <-].
    split; [|by exists s].
    intros k v. rewrite lookup_singleton_Some. intros [<- <-]; reflexivity.
  - destruct (decide (persona auth = ADMIN)) as [Hp|Hp].
    + rewrite get_me_run_admin by done.
      destruct (admin auth) as [a|]; intros [= <-].
      split; [|left; by exists a].
      intros k v. rewrite !lookup_insert_Some, lookup_singleton_Some.
      intros [[<- <-]|[_ [[<- <-]|[_ [<- <-]]]]]; reflexivity.
    + rewrite get_me_run_other by done.
      destruct (customer auth) as [c|]; intros [= <-].
      split; [|right; by exists c].
      intros k v. rewrite !lookup_insert_Some, lookup_singleton_Some.
      intros [[<- <-]|[_ [[<- <-]|[_ [<- <-]]]]]; reflexivity.
Qed.

(** C10: every identifier-like field is placed in the response as its
    [str], and is placed there indeed: [get_my_resource] returns [realm_id]
    as [str(auth.realm_id)]; [sync_data], when the system entity is there,
    returns [system_id] as [str(auth.system.id)]; [get_me] returns [id] and
    [email] as the [str] of [admin.id] and [admin.email] for persona ADMIN,
    and [id] and [realm_id] as the [str] of [customer.id] and
    [customer.realm_id] otherwise, when the entity is there.  The persona and
    the roles are stored as the objects themselves, and in any dictionary a
    handler returns the values under all other keys are strings. *)
Theorem identifiers_are_stringified (auth : AuthenticationContext) :
  (∃ d : dict,
     returned get_my_resource auth = Ok d ∧
     d !! "realm_id" = Some (VStr (str (realm_id auth))) ∧
     d !! "persona" = Some (VPersona (persona auth))) ∧
  (∀ s, system auth = Some s →
     ∃ d : dict,
       returned sync_data auth = Ok d ∧
       d !! "system_id" = Some (VStr (str (system_id s)))) ∧
  (∀ a, persona auth = ADMIN → admin auth = Some a →
     ∃ d : dict,
       returned get_me auth = Ok d ∧
       d !! "id" = Some (VStr (str (admin_id a))) ∧
       d !! "role" = Some (VAdminRole (admin_role a)) ∧
       d !! "email" = Some (VStr (str (admin_email a)))) ∧
  (∀ c, persona auth ≠ ADMIN → customer auth = Some c →
     ∃ d : dict,
       returned get_me auth = Ok d ∧
       d !! "id" = Some (VStr (str (customer_id c))) ∧
       d !! "role" = Some (VCustomerRole (customer_role c)) ∧
       d !! "realm_id" = Some (VStr (str (customer_realm_id c)))) ∧
  (∀ (e : endpoint) (d : dict),
     returned (handler e) auth = Ok d →
     (∀ k v, d !! k = Some v →
        is_str v = bool_decide (k ∉ ["persona"; "role"])) ∧
     match e with
     | GET_my_resource =>
         d !! "realm_id" = Some (VStr (str (realm_id auth))) ∧
         d !! "persona" = Some (VPersona (persona auth))
     | POST_internal_sync =>
         ∃ s, system auth = Some s ∧
           d !! "system_id" = Some (VStr (str (system_id s)))
     | GET_me =>
         (∃ a, admin auth = Some a ∧
            d !! "id" = Some (VStr (str (admin_id a))) ∧
            d !! "role" = Some (VAdminRole (admin_role a)) ∧
            d !! "email" = Some (VStr (str (admin_email a)))) ∨
         (∃ c, customer auth = Some c ∧
            d !! "id" = Some (VStr (str (customer_id c))) ∧
            d !! "role" = Some (VCustomerRole (customer_role c)) ∧
            d !! "realm_id" = Some (VStr (str (customer_realm_id c))))
     end).
Proof.
  split; [|split; [|split; [|split]]].
  - unfold returned. rewrite get_my_resource_run. by eexists.
  - intros s Hs. unfold returned. rewrite sync_data_run, Hs. by eexists.
  - intros a Hp Ha. unfold returned.
    rewrite get_me_run_admin, Ha by done. by eexists.
  - intros c Hp Hc. unfold returned.
    rewrite get_me_run_other, Hc by done. by eexists.
  - intros e d Hd. by apply returned_values_stringified.
Qed.

(** ** The frame of the handlers *)

(** C6: for every route and every context, the context object after the
    handler has returned is the context object it was given, sub-entities
    included; a request that was handled leaves the resolved context of its
    caller as it was. *)
Theorem handlers_leave_context_unchanged
    (e : endpoint) (auth : AuthenticationContext) :
  context_after (handler e) auth = auth ∧
  ∀ c, dependency e c = Resolved auth →
    ∃ r, request e c = Handled r auth.
Proof.
  split; [apply handler_reads_only|].
  intros c Hc. unfold request. rewrite Hc.
  pose proof (handler_reads_only e auth) as Hf.
  destruct (handler e auth) as [r auth']. simpl in Hf. subst auth'. by exists r.
Qed.

(** ** Requests in flight *)

Context {S : Type}.

(** Each body, run amid a process, answers what it answers on its own
    context and leaves the whole process as it found it. *)
Lemma body_run (e : endpoint) (v : view S) :
  Process.handler e v = (returned (handler e) (own v), v).
Proof.
  unfold returned. destruct e; unfold Process.handler, handler.
  - by rewrite get_my_resource_run.
  - rewrite sync_data_run.
    unfold Process.sync_data, mbind, Process.P_bind, Process.entity.
    by destruct (system (own v)).
  - unfold Process.get_me, mbind, Process.P_bind, Process.persona_is,
      Process.entity.
    destruct (decide (persona (own v) = ADMIN)) as [Hp|Hp].
    + rewrite get_me_run_admin, bool_decide_eq_true_2 by done.
      by destruct (admin (own v)).
    + rewrite get_me_run_other, bool_decide_eq_false_2 by done.
      by destruct (customer (own v)).
Qed.

Lemma invoke_run (rid : nat) (e : endpoint) (w : process S) :
  Process.invoke rid e w = (returned (handler e) <$> contexts w !! rid, w).
Proof.
  unfold Process.invoke, Process.invoke_body.
  destruct (contexts w !! rid) as [auth|] eqn:Hw; [|done].
  rewrite body_run. cbn [own rest contexts module_state fmap option_fmap option_map].
  f_equal. destruct w as [σ g]. cbn [contexts module_state] in *. f_equal.
  rewrite insert_delete_eq. by apply insert_id.
Qed.

Lemma serve_run (sched : list (nat * endpoint)) (w : process S) :
  Process.serve sched w =
    ((λ i, returned (handler i.2) <$> contexts w !! i.1) <$> sched, w).
Proof.
  induction sched as [|[rid e] sched IH]; [done|].
  cbn [Process.serve]. by rewrite invoke_run, IH.
Qed.

(** C7: a handler's response is a function of its own context alone, among
    everything a running body can reach.  Two invocations on equal contexts,
    in different requests, amid different other requests and different
    module states, return the same, which is what the body returns on that
    context; an invocation leaves the whole process as it was, the contexts
    of the other requests and the module state included; so does any
    schedule of invocations, each response of which is the response the
    invocation gives alone; and an invocation answers the same after any
    schedule as before it. *)
Theorem handlers_deterministic_and_isolated
    (sched : list (nat * endpoint)) (w1 w2 : process S)
    (r1 r2 : nat) (e : endpoint) :
  contexts w1 !! r1 = contexts w2 !! r2 →
  (Process.invoke r1 e w1).1 = (Process.invoke r2 e w2).1 ∧
  (Process.invoke r1 e w1).1 = returned (handler e) <$> contexts w1 !! r1 ∧
  (Process.invoke r1 e w1).2 = w1 ∧
  (Process.serve sched w1).2 = w1 ∧
  (Process.serve sched w1).1 = (λ i, (Process.invoke i.1 i.2 w1).1) <$> sched ∧
  (Process.invoke r1 e (Process.serve sched w1).2).1
    = (Process.invoke r2 e w2).1.
Proof.
  intros Heq. rewrite serve_run, !invoke_run. cbn [fst snd].
  rewrite Heq. repeat split.
  apply list_fmap_ext. intros ? [rid e']. by rewrite invoke_run.
Qed.

(** ** The gates in front of the handlers *)

Lemma persona_gate_resolved (allowed : list AuthenticationPersona)
    (c : Caller) (auth : AuthenticationContext) :
  DependsAuthorizedPersona allowed c = Resolved auth ↔
  ∃ scopes, c = Principal auth scopes ∧ persona auth ∈ allowed.
Proof.
  unfold DependsAuthorizedPersona. destruct c as [|auth0 scopes].
  - split; [done|]. by intros (? & ? & _).
  - case_bool_decide as Hin; split.
    + intros [= <-]. by exists scopes.
    + by intros (? & [= <- _] & _).
    + done.
    + by intros (? & [= <- _] & ?).
Qed.

Lemma scope_gate_resolved (required_scope : string)
    (c : Caller) (auth : AuthenticationContext) :
  DependsSystemHasScope required_scope c = Resolved auth ↔
  ∃ scopes, c = Principal auth scopes ∧ persona auth = SYSTEM ∧
    is_Some (system auth) ∧ required_scope ∈ scopes.
Proof.
  unfold DependsSystemHasScope, system_principal.
  destruct c as [|auth0 scopes].
  - split; [done|]. by intros (? & ? & _).
  - destruct (bool_decide _ && bool_decide _ && bool_decide _) eqn:Hb.
    + apply andb_true_iff in Hb as [Hb Hs]. apply andb_true_iff in Hb as [Hp He].
      apply bool_decide_eq_true_1 in Hs, Hp, He. split.
      * intros [= <-]. by exists scopes.
      * by intros (? & [= <- _] & _).
    + split; [done|]. intros (? & [= <- <-] & Hp & He & Hs).
      rewrite !bool_decide_eq_true_2 in Hb by done. done.
Qed.

Lemma request_denied (e : endpoint) (c : Caller) :
  dependency e c = Denied → request e c = AccessDenied.
Proof. unfold request. by intros ->. Qed.

Lemma request_resolved (e : endpoint) (c : Caller) (auth : AuthenticationContext) :
  dependency e c = Resolved auth →
  request e c = Handled (returned (handler e) auth) auth.
Proof.
  unfold request, returned. intros ->.
  pose proof (handler_reads_only e auth) as Hf.
  destruct (handler e auth) as [r auth']. simpl in *. by subst.
Qed.

(** C4: on [GET /my-resource] and [GET /me] the persona gate resolves, and
    to the caller's own context, if and only if the caller's authenticated
    persona is ADMIN or CUSTOMER; the handler body runs in exactly that
    case, and every other caller gets the access denial. *)
Theorem persona_gate_admits_iff_member (e : endpoint) (c : Caller) :
  e = GET_my_resource ∨ e = GET_me →
  ((∃ auth, dependency e c = Resolved auth) ↔
     ∃ p, authenticated_persona c = Some p ∧ p ∈ [ADMIN; CUSTOMER]) ∧
  (∀ auth, dependency e c = Resolved auth →
     (∃ scopes, c = Principal auth scopes) ∧
     request e c = Handled (returned (handler e) auth) auth) ∧
  (handler_executed (request e c) = true ↔
     ∃ p, authenticated_persona c = Some p ∧ p ∈ [ADMIN; CUSTOMER]) ∧
  (¬ (∃ p, authenticated_persona c = Some p ∧ p ∈ [ADMIN; CUSTOMER]) →
     dependency e c = Denied ∧ request e c = AccessDenied).
Proof.
  intros He.
  assert (Hgate : ∀ auth, dependency e c = Resolved auth ↔
            ∃ scopes, c = Principal auth scopes ∧ persona auth ∈ [ADMIN; CUSTOMER]).
  { intros auth. destruct He as [-> | ->]; apply persona_gate_resolved. }
  assert (Hiff : (∃ auth, dependency e c = Resolved auth) ↔
            ∃ p, authenticated_persona c = Some p ∧ p ∈ [ADMIN; CUSTOMER]).
  { split.
    - intros [auth (scopes & -> & Hin)%Hgate]. by exists (persona auth).
    - intros (p & Hp & Hin). destruct c as [|auth scopes]; [done|].
      injection Hp as <-. exists auth. apply Hgate. by exists scopes. }
  split; [done|]. split; [|split].
  - intros auth Hres. split; [|by apply request_resolved].
    apply Hgate in Hres as (scopes & -> & _). by exists scopes.
  - rewrite <- Hiff. split.
    + unfold request. destruct (dependency e c) as [auth|]; [by exists auth|done].
    + intros [auth Hres]. by rewrite (request_resolved _ _ _ Hres).
  - intros Hno. rewrite <- Hiff in Hno.
    assert (dependency e c = Denied) as Hd.
    { destruct (dependency e c) as [auth|]; [|done]. destruct Hno. by exists auth. }
    split; [done|]. by apply request_denied.
Qed.

(** C5: on [POST /internal/sync] the scope gate resolves only for a caller
    authenticated as a system principal (persona SYSTEM, system entity
    present) that holds the scope [my_service.sync:execute], and then to that
    caller's own context; for every other caller it denies, and the handler
    body does not run. *)
Theorem scope_gate_only_scoped_system (c : Caller) :
  (∀ auth, dependency POST_internal_sync c = Resolved auth →
     ∃ scopes, c = Principal auth scopes ∧ persona auth = SYSTEM ∧
       is_Some (system auth) ∧ "my_service.sync:execute" ∈ scopes) ∧
  (¬ (∃ auth scopes, c = Principal auth scopes ∧ persona auth = SYSTEM ∧
        is_Some (system auth) ∧ "my_service.sync:execute" ∈ scopes) →
     dependency POST_internal_sync c = Denied ∧
     request POST_internal_sync c = AccessDenied ∧
     handler_executed (request POST_internal_sync c) = false).
Proof.
  split.
  - intros auth Hres. by apply scope_gate_resolved in Hres.
  - intros Hno.
    assert (dependency POST_internal_sync c = Denied) as Hd.
    { destruct (dependency POST_internal_sync c) as [auth|] eqn:Hres; [|done].
      destruct Hno. exists auth. by apply scope_gate_resolved in Hres. }
    split; [done|]. by rewrite (request_denied _ _ Hd).
Qed.

(** C9: [sync_data] reads [auth.system.id] with no test before it: it
    returns if and only if the system entity is there, and raises the
    missing-entity exception otherwise; a context that the scope gate of
    [POST /internal/sync] resolved has the entity, so that the request is
    handled and returns. *)
Theorem sync_data_defined_iff_system (auth : AuthenticationContext) :
  (is_Some (system auth) ↔ ∃ d, returned sync_data auth = Ok d) ∧
  (system auth = None → returned sync_data auth = Raise (MissingEntity SYSTEM)) ∧
  (∀ c, dependency POST_internal_sync c = Resolved auth →
     ∃ d, returned sync_data auth = Ok d ∧
       request POST_internal_sync c = Handled (Ok d) auth).
Proof.
  unfold returned. rewrite sync_data_run. split; [|split].
  - destruct (system auth) as [s|]; split.
    + by eexists.
    + by eexists.
    + by intros [? ?].
    + by intros [? ?].
  - by intros ->.
  - intros c Hres. rewrite (request_resolved _ _ _ Hres).
    apply scope_gate_resolved in Hres as (_ & _ & _ & [s Hs] & _).
    unfold returned, handler. rewrite sync_data_run, Hs. by eexists.
Qed.

(** ** Further properties of the handlers *)

Lemma Ok_eq {A} (a b : A) : Ok a = Ok b → a = b.
Proof. by intros [= ->]. Qed.

(** The exceptions of the handlers: [get_my_resource] never raises;
    [sync_data] raises exactly when the system entity is missing; [get_me]
    raises exactly when the entity of the branch it takes is missing, the
    admin for persona ADMIN even if a customer is there, the customer for
    any other persona even if an admin is there. *)
Theorem handler_raises_iff_entity_missing
    (e : endpoint) (auth : AuthenticationContext) (x : exn) :
  returned (handler e) auth = Raise x ↔
  match e with
  | GET_my_resource => False
  | POST_internal_sync => x = MissingEntity SYSTEM ∧ system auth = None
  | GET_me =>
      (x = MissingEntity ADMIN ∧ persona auth = ADMIN ∧ admin auth = None) ∨
      (x = MissingEntity CUSTOMER ∧ persona auth ≠ ADMIN ∧ customer auth = None)
  end.
Proof.
  unfold returned. destruct e; unfold handler.
  - rewrite get_my_resource_run. simpl. split; [discriminate|done].
  - rewrite sync_data_run. destruct (system auth) as [s|]; simpl; split.
    + discriminate.
    + by intros [_ ?].
    + by intros [= <-].
    + by intros [-> _].
  - destruct (decide (persona auth = ADMIN)) as [Hp|Hp].
    + rewrite get_me_run_admin by done.
      destruct (admin auth) as [a|]; simpl; split.
      * discriminate.
      * intros [(_ & _ & ?)|(_ & ? & _)]; done.
      * intros [= <-]. by left.
      * intros [(-> & _)|(_ & ? & _)]; done.
    + rewrite get_me_run_other by done.
      destruct (customer auth) as [c|]; simpl; split.
      * discriminate.
      * intros [(_ & ? & _)|(_ & _ & ?)]; done.
      * intros [= <-]. by right.
      * intros [(_ & ? & _)|(-> & _)]; done.
Qed.

(** Every dictionary [get_me] returns has three keys, [id] and [role] among
    them; the third is [email] exactly for persona ADMIN and [realm_id]
    exactly for any other persona, so the keys tell which branch answered. *)
Theorem get_me_keys (auth : AuthenticationContext) (d : dict) :
  returned get_me auth = Ok d →
  size d = 3 ∧ "id" ∈ dom d ∧ "role" ∈ dom d ∧
  ("email" ∈ dom d ↔ persona auth = ADMIN) ∧
  ("realm_id" ∈ dom d ↔ persona auth ≠ ADMIN).
Proof.
  unfold returned. destruct (decide (persona auth = ADMIN)) as [Hp|Hp].
  - rewrite get_me_run_admin by done.
    destruct (admin auth) as [a|]; intros [= <-].
    rewrite !dom_insert_L, dom_singleton_L.
    split; [reflexivity|]. set_unfold. intuition congruence.
  - rewrite get_me_run_other by done.
    destruct (customer auth) as [c|]; intros [= <-].
    rewrite !dom_insert_L, dom_singleton_L.
    split; [reflexivity|]. set_unfold. intuition congruence.
Qed.

(** What [get_my_resource] reveals: two contexts get the same response if and
    only if they have the same persona and realms of the same string form;
    the sub-entities have no part in it. *)
Theorem get_my_resource_reveals (auth1 auth2 : AuthenticationContext) :
  returned get_my_resource auth1 = returned get_my_resource auth2 ↔
  persona auth1 = persona auth2 ∧ str (realm_id auth1) = str (realm_id auth2).
Proof.
  unfold returned. rewrite !get_my_resource_run. cbn [fst]. split.
  - intros Hd%Ok_eq.
    pose proof (f_equal (.!! "realm_id") Hd) as Hr.
    pose proof (f_equal (.!! "persona") Hd) as Hp.
    rewrite !lookup_insert_eq in Hr.
    rewrite !lookup_insert_ne, !lookup_singleton_eq in Hp by done.
    by injection Hr as ->; injection Hp as ->.
  - by intros [-> ->].
Qed.

(** What [sync_data] reveals: two contexts get the same outcome if and only
    if both lack the system entity or both have one with the same string form
    of its identifier.  The body tests neither the persona nor the realm: the
    protection of the route is the gate's alone. *)
Theorem sync_data_reveals (auth1 auth2 : AuthenticationContext) :
  returned sync_data auth1 = returned sync_data auth2 ↔
  (λ s, str (system_id s)) <$> system auth1 =
  (λ s, str (system_id s)) <$> system auth2.
Proof.
  unfold returned. rewrite !sync_data_run.
  destruct (system auth1) as [s1|], (system auth2) as [s2|]; cbn [fst fmap option_fmap option_map];
    split; try done.
  - intros Hd%Ok_eq. pose proof (f_equal (.!! "system_id") Hd) as Hs.
    rewrite !lookup_singleton_eq in Hs. by injection Hs as ->.
  - by intros [= ->].
Qed.

(** Behind their gates the handlers do not raise: for a caller whose context
    has the entity of its persona, a request on any of the three routes is
    either denied or handled with a dictionary, on the caller's own context
    left as it was. *)
Theorem request_denied_or_answered (e : endpoint) (c : Caller) :
  (∀ auth scopes, c = Principal auth scopes → populated auth) →
  request e c = AccessDenied ∨
  ∃ auth scopes d, c = Principal auth scopes ∧ request e c = Handled (Ok d) auth.
Proof.
  intros Hpop. destruct (dependency e c) as [auth|] eqn:Hres;
    [right|left; by apply request_denied].
  rewrite (request_resolved _ _ _ Hres). unfold returned.
  destruct e; unfold dependency in Hres; unfold handler.
  - apply persona_gate_resolved in Hres as (scopes & -> & _).
    rewrite get_my_resource_run. by eexists _, _, _.
  - apply scope_gate_resolved in Hres as (scopes & -> & _ & [s Hs] & _).
    rewrite sync_data_run, Hs. by eexists _, _, _.
  - apply persona_gate_resolved in Hres as (scopes & -> & Hin).
    specialize (Hpop _ _ eq_refl). unfold populated in Hpop.
    apply elem_of_cons in Hin as [Hp|Hin].
    + rewrite Hp in Hpop. destruct Hpop as [a Ha].
      rewrite get_me_run_admin, Ha by done. by eexists _, _, _.
    + apply list_elem_of_singleton in Hin. rewrite Hin in Hpop.
      destruct Hpop as [cu Hc].
      rewrite get_me_run_other, Hc by congruence. by eexists _, _, _.
Qed.

End Properties.

(** * The theorems at the concrete instance *)

#[local] Existing Instance demo.

Example get_my_resource_customer :
  get_my_resource Demo.customer_ctx =
    (Ok {[ "realm_id" := VStr "realm-2"; "persona" := VPersona CUSTOMER ]},
     Demo.customer_ctx).
Proof. reflexivity. Qed.

Example sync_data_system :
  sync_data Demo.system_ctx = (Ok {[ "system_id" := VStr "s-42" ]}, Demo.system_ctx).
Proof. reflexivity. Qed.

Example sync_data_admin_raises :
  sync_data Demo.admin_ctx = (Raise (MissingEntity SYSTEM), Demo.admin_ctx).
Proof. reflexivity. Qed.

Example request_sync_unscoped :
  request POST_internal_sync Demo.unscoped_caller = AccessDenied.
Proof. reflexivity. Qed.

Example request_me_admin :
  request GET_me Demo.admin_caller =
    Handled (Ok {[ "id" := VStr "a-01"; "role" := VAdminRole "owner";
                   "email" := VStr "root@example.org" ]}) Demo.admin_ctx.
Proof. reflexivity. Qed.

Example serve_in_flight :
  Process.serve [(3, GET_me); (9, GET_me); (1, GET_my_resource)] Demo.in_flight =
    ([ Some (Ok {[ "id" := VStr "a-01"; "role" := VAdminRole "owner";
                   "email" := VStr "root@example.org" ]});
       None;
       Some (Ok {[ "realm_id" := VStr "realm-2"; "persona" := VPersona CUSTOMER ]}) ],
     Demo.in_flight).
Proof. reflexivity. Qed.

(** A body that reads the module state answers differently to two requests
    with equal contexts: what C7 says of the three bodies is not true of
    every body. *)
Example leaky_depends_on_module_state :
  contexts Demo.in_flight !! 1 = contexts Demo.elsewhere !! 5 ∧
  (Process.invoke_body Demo.leaky 1 Demo.in_flight).1
    ≠ (Process.invoke_body Demo.leaky 5 Demo.elsewhere).1.
Proof. split; [reflexivity|]. vm_compute. discriminate. Qed.

(** A body that writes to the rest of the process changes what another
    request is answered. *)
Example meddling_affects_other_request :
  (Process.invoke 2 GET_me Demo.in_flight).1
    = Some (Ok {[ "id" := VStr "c-07"; "role" := VCustomerRole "member";
                  "realm_id" := VStr "realm-2" ]}) ∧
  (Process.invoke 2 GET_me
     (Process.invoke_body Demo.meddling 1 Demo.in_flight).2).1 = None.
Proof. split; reflexivity. Qed.

Lemma get_me_shape_by_persona_witness :
  (populated Demo.admin_ctx ∧ persona Demo.admin_ctx = ADMIN ∧
   returned get_me Demo.admin_ctx =
     Ok {[ "id" := VStr "a-01"; "role" := VAdminRole "owner";
           "email" := VStr "root@example.org" ]}) ∧
  (populated Demo.customer_ctx ∧ persona Demo.customer_ctx = CUSTOMER ∧
   returned get_me Demo.customer_ctx =
     Ok {[ "id" := VStr "c-07"; "role" := VCustomerRole "member";
           "realm_id" := VStr "realm-2" ]}).
Proof.
  assert (Ha : populated Demo.admin_ctx) by (exists Demo.root; reflexivity).
  assert (Hc : populated Demo.customer_ctx) by (exists Demo.bob; reflexivity).
  split; (split; [assumption|]); (split; [reflexivity|]).
  - destruct (proj1 (get_me_shape_by_persona Demo.admin_ctx Ha) eq_refl)
      as (a & Hsome & Hret).
    injection Hsome as <-. exact Hret.
  - destruct (proj2 (get_me_shape_by_persona Demo.customer_ctx Hc) eq_refl)
      as (c & Hsome & Hret).
    injection Hsome as <-. exact Hret.
Defined.

Lemma sync_data_echoes_witness :
  system Demo.system_ctx = Some Demo.syncer ∧
  ∃ d : gmap string value,
    returned sync_data Demo.system_ctx = Ok d ∧
    dom d = {[ "system_id" ]} ∧
    d !! "system_id" = Some (VStr "s-42").
Proof.
  split; [reflexivity|].
  exact (sync_data_echoes Demo.system_ctx Demo.syncer eq_refl).
Defined.

(** C8 as first stated, that every non-ADMIN context gets the customer-shaped
    fields back, fails on a system principal: its persona is SYSTEM, its own
    entity is populated, it has no customer entity, and [get_me] raises. *)
Lemma get_me_system_without_customer_raises :
  populated Demo.system_ctx ∧
  persona Demo.system_ctx ≠ ADMIN ∧
  returned get_me Demo.system_ctx = Raise (MissingEntity CUSTOMER) ∧
  ¬ ∃ d, returned get_me Demo.system_ctx = Ok d.
Proof.
  split; [by exists Demo.syncer|]. split; [discriminate|].
  split; [reflexivity|]. intros [d Hd]. discriminate Hd.
Qed.

Lemma get_me_non_admin_is_customer_witness :
  persona Demo.system_with_customer_ctx ≠ ADMIN ∧
  returned get_me Demo.system_with_customer_ctx =
    Ok {[ "id" := VStr "c-07"; "role" := VCustomerRole "member";
          "realm_id" := VStr "realm-2" ]}.
Proof.
  assert (Hp : persona Demo.system_with_customer_ctx ≠ ADMIN) by discriminate.
  split; [exact Hp|].
  exact (get_me_non_admin_is_customer Demo.system_with_customer_ctx Hp).
Defined.

Lemma identifiers_are_stringified_witness :
  (∃ d : gmap string value,
     returned sync_data Demo.system_ctx = Ok d ∧
     d !! "system_id" = Some (VStr "s-42")) ∧
  (∃ d : gmap string value,
     returned get_me Demo.admin_ctx = Ok d ∧
     d !! "id" = Some (VStr "a-01") ∧
     d !! "role" = Some (VAdminRole "owner") ∧
     d !! "email" = Some (VStr "root@example.org")) ∧
  (∃ d : gmap string value,
     returned get_me Demo.customer_ctx = Ok d ∧
     d !! "id" = Some (VStr "c-07") ∧
     d !! "role" = Some (VCustomerRole "member") ∧
     d !! "realm_id" = Some (VStr "realm-2")) ∧
  (∀ d : gmap string value,
     returned (handler GET_my_resource) Demo.customer_ctx = Ok d →
     d !! "realm_id" = Some (VStr "realm-2") ∧
     d !! "persona" = Some (VPersona CUSTOMER)).
Proof.
  split; [|split; [|split]].
  - exact (proj1 (proj2 (identifiers_are_stringified Demo.system_ctx))
             Demo.syncer eq_refl).
  - exact (proj1 (proj2 (proj2 (identifiers_are_stringified Demo.admin_ctx)))
             Demo.root eq_refl eq_refl).
  - refine (proj1 (proj2 (proj2 (proj2
              (identifiers_are_stringified Demo.customer_ctx))))
              Demo.bob _ eq_refl).
    discriminate.
  - intros d Hd.
    exact (proj2 (proj2 (proj2 (proj2 (proj2
             (identifiers_are_stringified Demo.customer_ctx))))
             GET_my_resource d Hd)).
Defined.

Lemma handlers_leave_context_unchanged_witness :
  dependency POST_internal_sync Demo.sync_caller = Resolved Demo.system_ctx ∧
  context_after (handler POST_internal_sync) Demo.system_ctx = Demo.system_ctx ∧
  ∃ r, request POST_internal_sync Demo.sync_caller = Handled r Demo.system_ctx.
Proof.
  assert (Hres : dependency POST_internal_sync Demo.sync_caller
                 = Resolved Demo.system_ctx) by reflexivity.
  split; [exact Hres|].
  destruct (handlers_leave_context_unchanged POST_internal_sync Demo.system_ctx)
    as [Hframe Hreq].
  split; [exact Hframe|]. exact (Hreq Demo.sync_caller Hres).
Defined.

Lemma handlers_deterministic_and_isolated_witness :
  let sched := [(3, GET_me); (1, GET_my_resource); (2, GET_me)] in
  contexts Demo.in_flight !! 1 = contexts Demo.elsewhere !! 5 ∧
  (Process.invoke 1 GET_me Demo.in_flight).1
    = (Process.invoke 5 GET_me Demo.elsewhere).1 ∧
  (Process.invoke 1 GET_me Demo.in_flight).2 = Demo.in_flight ∧
  (Process.serve sched Demo.in_flight).2 = Demo.in_flight ∧
  (Process.invoke 1 GET_me (Process.serve sched Demo.in_flight).2).1
    = (Process.invoke 5 GET_me Demo.elsewhere).1.
Proof.
  intros sched.
  assert (Heq : contexts Demo.in_flight !! 1 = contexts Demo.elsewhere !! 5)
    by reflexivity.
  split; [exact Heq|].
  destruct (handlers_deterministic_and_isolated
              sched Demo.in_flight Demo.elsewhere 1 5 GET_me Heq)
    as (Hdet & _ & Hone & Hframe & _ & Hafter).
  split; [exact Hdet|]. split; [exact Hone|].
  split; [exact Hframe|exact Hafter].
Defined.

Lemma persona_gate_admits_iff_member_witness :
  handler_executed (request GET_me Demo.customer_caller) = true ∧
  request GET_my_resource Demo.sync_caller = AccessDenied.
Proof.
  split.
  - apply (proj1 (proj2 (proj2
      (persona_gate_admits_iff_member GET_me Demo.customer_caller
         (or_intror eq_refl))))).
    exists CUSTOMER. split; [reflexivity|]. apply list_elem_of_In. simpl. auto.
  - apply (proj2 (proj2 (proj2
      (persona_gate_admits_iff_member GET_my_resource Demo.sync_caller
         (or_introl eq_refl))))).
    intros (p & Hp & Hin). injection Hp as <-.
    apply list_elem_of_In in Hin. simpl in Hin.
    destruct Hin as [Hin|[Hin|[]]]; discriminate Hin.
Defined.

Lemma scope_gate_only_scoped_system_witness :
  request POST_internal_sync Demo.unscoped_caller = AccessDenied ∧
  request POST_internal_sync Demo.admin_caller = AccessDenied ∧
  persona Demo.system_ctx = SYSTEM.
Proof.
  split; [|split].
  - apply (proj2 (scope_gate_only_scoped_system Demo.unscoped_caller)).
    intros (auth & scopes & Hc & _ & _ & Hin). injection Hc as <- <-.
    apply list_elem_of_In in Hin. simpl in Hin.
    destruct Hin as [Hin|[]]. discriminate Hin.
  - apply (proj2 (scope_gate_only_scoped_system Demo.admin_caller)).
    intros (auth & scopes & Hc & Hp & _). injection Hc as <- <-.
    discriminate Hp.
  - destruct (proj1 (scope_gate_only_scoped_system Demo.sync_caller)
                Demo.system_ctx eq_refl) as (scopes & _ & Hp & _).
    exact Hp.
Defined.

Lemma sync_data_defined_iff_system_witness :
  (∃ d, returned sync_data Demo.system_ctx = Ok d ∧
     request POST_internal_sync Demo.sync_caller = Handled (Ok d) Demo.system_ctx) ∧
  returned sync_data Demo.hollow_system_ctx = Raise (MissingEntity SYSTEM).
Proof.
  split.
  - exact (proj2 (proj2 (sync_data_defined_iff_system Demo.system_ctx))
             Demo.sync_caller eq_refl).
  - exact (proj1 (proj2 (sync_data_defined_iff_system Demo.hollow_system_ctx))
             eq_refl).
Defined.

Lemma get_me_keys_witness :
  let d : gmap string value :=
    {[ "id" := VStr "a-01"; "role" := VAdminRole "owner";
       "email" := VStr "root@example.org" ]} in
  returned get_me Demo.admin_ctx = Ok d ∧
  size d = 3 ∧ "id" ∈ dom d ∧ "role" ∈ dom d ∧
  ("email" ∈ dom d ↔ persona Demo.admin_ctx = ADMIN) ∧
  ("realm_id" ∈ dom d ↔ persona Demo.admin_ctx ≠ ADMIN).
Proof.
  intros d.
  assert (Hret : returned get_me Demo.admin_ctx = Ok d) by reflexivity.
  split; [exact Hret|]. exact (get_me_keys Demo.admin_ctx d Hret).
Defined.

Lemma request_denied_or_answered_witness :
  (∀ auth scopes, Demo.customer_caller = Principal auth scopes → populated auth) ∧
  (request GET_me Demo.customer_caller = AccessDenied ∨
   ∃ auth scopes d, Demo.customer_caller = Principal auth scopes ∧
     request GET_me Demo.customer_caller = Handled (Ok d) auth).
Proof.
  assert (Hpop : ∀ auth scopes,
            Demo.customer_caller = Principal auth scopes → populated auth).
  { intros auth scopes Hc. injection Hc as <- _. exists Demo.bob. reflexivity. }
  split; [exact Hpop|].
  exact (request_denied_or_answered GET_me Demo.customer_caller Hpop).
Defined.
